(** * The login endpoint and the figure plugin of the site

    Two pieces of the repository are embedded here:

    - [Figure]: the rehype plugin [rehypeFigure], which turns a top-level
      paragraph that starts with an image into a [figure] with a
      [figcaption];
    - [Anchor]: the route handler [GET] of
      [pages/[...locale]/drifter/anchor/[platform].ts], which drives the
      OAuth authorization-code flow (initiate, callback, provider error).

    The handler is effectful: it reads and writes cookies, draws random
    values, calls the provider and writes the account table.  It is
    embedded in a small state-and-exception monad over an explicit
    [World]. *)

From Stdlib Require Import ZArith String Ascii List Lia.
From stdpp Require Import base option list gmap strings pretty.

Open Scope string_scope.
Open Scope list_scope.
Set Warnings "-register-all".

(** ** hast trees and the figure plugin *)
Module Figure.

(** A property value of a hast element.  Numbers are the integral ones
    and arrays hold strings. *)
Inductive PropertyValue :=
| PString (s : string)
| PNumber (n : Z)
| PBoolean (b : bool)
| PArray (l : list string).

Abbreviation Properties := (gmap string PropertyValue).

(** The nodes that may occur below the root of a hast tree. *)
Inductive Node :=
| element (tagName : string) (properties : Properties) (children : list Node)
| text (value : string)
| comment (value : string)
| doctype.

Record Root := root { root_children : list Node }.

(** The type of the parent handed to a visitor: only a root or an element
    has children. *)
Inductive ParentType := parent_root | parent_element.

(** JavaScript truthiness of a property that may be missing:
    [!properties.src] is [negb (truthy (properties !! "src"))]. *)
Definition truthy (v : option PropertyValue) : bool :=
  match v with
  | None => false
  | Some (PString s) => negb (String.eqb s "")
  | Some (PNumber n) => negb (Z.eqb n 0)
  | Some (PBoolean b) => b
  | Some (PArray _) => true
  end.

(** White space as [String.prototype.trim] sees it, for code units below
    256: tab, line feed, vertical tab, form feed, carriage return, space
    and no-break space.  A character of a [string] stands for one code
    unit. *)
Definition is_white_space (c : ascii) : bool :=
  let n := nat_of_ascii c in
  (Nat.leb 9 n && Nat.leb n 13) || Nat.eqb n 32 || Nat.eqb n 160.

Fixpoint trim_start (l : list ascii) : list ascii :=
  match l with
  | c :: l' => if is_white_space c then trim_start l' else l
  | [] => []
  end.

Definition trim (s : string) : string :=
  string_of_list_ascii
    (rev (trim_start (rev (trim_start (list_ascii_of_string s))))).

(** The predicate of the [filter] call: the child is kept unless it is a
    text node whose trimmed value is empty. *)
Definition kept (child : Node) : bool :=
  negb (match child with
        | text value => String.eqb (trim value) ""
        | _ => false
        end).

(** The height of a node, which bounds the fuel a walk needs. *)
Fixpoint height (n : Node) : nat :=
  match n with
  | element _ _ c => S (max_list (height <$> c))
  | _ => 0
  end.

Definition tree_height (tree : Root) : nat :=
  max_list (height <$> root_children tree).

(** A paragraph that opens with an image: the children that are not
    blank text start with an [img] whose [src] and [alt] are truthy.
    The result holds the paragraph's properties, the image's properties
    and the remaining children that are not blank text. *)
Definition image_paragraph (n : Node)
  : option (Properties * Properties * list Node) :=
  match n with
  | element tagName properties cs =>
    if String.eqb tagName "p" then
      match List.filter kept cs with
      | element first_tag first_properties _ :: rest =>
        if String.eqb first_tag "img"
           && truthy (first_properties !! "src")
           && truthy (first_properties !! "alt")
        then Some (properties, first_properties, rest) else None
      | _ => None
      end
    else None
  | _ => None
  end.

Definition caption (alt : string) (rest : list Node) : list Node :=
  match rest with
  | [] => [text alt]
  | _ => text alt :: text " " :: rest
  end.

Fixpoint skip_blank (cs : list Node) : list Node :=
  match cs with
  | c :: cs' => if kept c then cs else skip_blank cs'
  | [] => []
  end.

Definition present (v : option PropertyValue) : bool :=
  match v with Some _ => true | None => false end.

(** The reading under which every property that is present counts as set
    and every child after the image, blank or not, is carried over. *)
Definition image_paragraph_as_claimed (n : Node)
  : option (Properties * Properties * list Node) :=
  match n with
  | element tagName properties cs =>
    if String.eqb tagName "p" then
      match skip_blank cs with
      | element first_tag first_properties _ :: further =>
        if String.eqb first_tag "img"
           && present (first_properties !! "src")
           && present (first_properties !! "alt")
        then Some (properties, first_properties, further) else None
      | _ => None
      end
    else None
  | _ => None
  end.

Section Plugin.

(** What the plugin takes from JavaScript and from hastscript:
    [String(n)] for a number [n]; what [h] makes of an object of
    properties, key by key: it renames keys and coerces values by its
    schema; and the test by which [h] takes an object for a node, not for
    properties. *)
Variable Number_toString : Z -> string.
Variable h_properties : Properties -> Properties.
Variable isChild : Properties -> bool.

(** [String(v)] for a property value. *)
Definition String_ (v : option PropertyValue) : string :=
  match v with
  | None => "undefined"
  | Some (PString s) => s
  | Some (PNumber n) => Number_toString n
  | Some (PBoolean true) => "true"
  | Some (PBoolean false) => "false"
  | Some (PArray l) => String.concat "," l
  end.

(** [h(selector, second)] of hastscript for the two calls of the plugin:
    the second argument is an object of properties or an array of
    nodes.  An array is the children of the new element, which has no
    properties then.  An object is its properties unless [isChild] takes
    it for a node: that case is not modelled, and [None] stands for
    it. *)
Definition h (selector : string) (second : Properties + list Node)
  : option Node :=
  match second with
  | inl props =>
    if isChild props then None
    else Some (element selector (h_properties props) [])
  | inr kids => Some (element selector ∅ kids)
  end.

(** The visitor passed to [visit], with the test ["element"] that
    guards it: a node that is not an element is not visited.  The source
    changes [node] in place and returns nothing; here the visitor returns
    the node as it is after the call, and [None] where [h] does. *)
Definition visitor (node : Node) (parent : option ParentType)
  : option Node :=
  match node with
  | element tagName properties node_children =>
    if negb (String.eqb tagName "p")
       || negb (match parent with Some parent_root => true | _ => false end)
    then Some node else
    let children := List.filter kept node_children in
    match children with
    | [] => Some node
    | firstChild :: remainingChildren =>
      match firstChild with
      | element first_tag first_properties _ =>
        if negb (String.eqb first_tag "img") then Some node else
        if negb (truthy (first_properties !! "src"))
           || negb (truthy (first_properties !! "alt")) then Some node else
        let altText := String_ (first_properties !! "alt") in
        let figcaptionChildren :=
          [text altText] ++
          (if Nat.ltb 0 (length remainingChildren)
           then [text " "] ++ remainingChildren else []) in
        img ← h "img" (inl first_properties);
        figcaption ← h "figcaption" (inr figcaptionChildren);
        Some (element "figure" properties [img; figcaption])
      | _ => Some node
      end
    end
  | _ => Some node
  end.

(** [visit(tree, "element", visitor)]: a depth-first walk in document
    order that calls the visitor on every element, with its parent, and
    then walks the children the node has after the call.  The walk is
    bounded by [fuel]; [None] means that the bound was too small or that
    the visitor met a call of [h] that is not modelled. *)
Fixpoint visit (fuel : nat) (parent : option ParentType) (node : Node)
  : option Node :=
  match fuel with
  | O => None
  | S fuel' =>
    match visitor node parent with
    | Some (element t p c) =>
      element t p <$> mapM (visit fuel' (Some parent_element)) c
    | other => other
    end
  end.

Definition rehypeFigure (fuel : nat) (tree : Root) : option Root :=
  root <$> mapM (visit fuel (Some parent_root)) (root_children tree).

(** *** What the plugin is meant to do, in the words of its description *)

(** The image of a paragraph that opens with one has properties that
    hastscript reads as properties. *)
Definition plain_image (n : Node) : bool :=
  match image_paragraph n with
  | Some (_, img, _) => negb (isChild img)
  | None => true
  end.

Definition figure_of (n : Node) : Node :=
  match image_paragraph n with
  | Some (properties, img, rest) =>
    element "figure" properties
      [element "img" (h_properties img) [];
       element "figcaption" ∅ (caption (String_ (img !! "alt")) rest)]
  | None => n
  end.

Definition figure_as_claimed (n : Node) : Node :=
  match image_paragraph_as_claimed n with
  | Some (properties, img, further) =>
    element "figure" properties
      [element "img" (h_properties img) [];
       element "figcaption" ∅ (caption (String_ (img !! "alt")) further)]
  | None => n
  end.

End Plugin.

(** *** Sample trees *)

(** For the sample trees: a number prints as its digits, which is how
    JavaScript prints an integer below 10^21; the properties stay as
    they are, which is what hastscript does to a [src] and an [alt] that
    are strings; and an object is taken for a node only if it has a
    [type], which none of the images has. *)
Definition digits : Z -> string := pretty.
Definition as_given : Properties -> Properties := fun props => props.
Definition typed (props : Properties) : bool := present (props !! "type").

Definition photo : Node :=
  element "img"
    {[ "src" := PString "images/talk.jpeg";
       "alt" := PString "Photo from the talk" ]} [].

Definition untitled : Node :=
  element "img"
    {[ "src" := PString "images/talk.jpeg"; "alt" := PString "" ]} [].

(** A note with a captioned photo, a photo followed by a line break, a
    photo without alt text, plain text, and a photo inside a quotation. *)
Definition note : Root :=
  root [ element "p" ∅ [text " "; photo; text " "; element "em" ∅ [text "Lagos"]];
         element "p" ∅ [photo; text " "];
         element "p" ∅ [untitled];
         element "p" ∅ [text "Here are some photos from the talk:"];
         element "blockquote" ∅ [element "p" ∅ [photo]] ].

End Figure.

(** ** The OAuth route handler *)
Module Anchor.

(** *** JavaScript values of the handler *)

(** [searchParams.get] and [headers.get] answer a string or [null]; a
    missing property of an object is [undefined].  Both are [None] here,
    and the operations below say which of the two they expect. *)

(** Truthiness of a string that may be [null]: [if (code)]. *)
Definition truthy (s : option string) : bool :=
  match s with
  | Some s => negb (String.eqb s "")
  | None => false
  end.

(** [a !== b] for [a] a string or [undefined] and [b] a string or [null]:
    [undefined] and [null] are different values, so only two equal
    strings are equal. *)
Definition strict_ne (a b : option string) : bool :=
  match a, b with
  | Some x, Some y => negb (String.eqb x y)
  | _, _ => true
  end.

(** The payload of a token: an object whose fields may be missing. *)
Module Payload.
Record t := mk {
  state : option string;
  code_verifier : option string;
  referrer : option string;
  visa : option string
}.
(** [{ state, code_verifier, referrer }] *)
Definition escort (state code_verifier referrer : string) : t :=
  {| state := Some state; code_verifier := Some code_verifier;
     referrer := Some referrer; visa := None |}.
(** [{ visa }] *)
Definition passport (visa : string) : t :=
  {| state := None; code_verifier := None; referrer := None;
     visa := Some visa |}.
End Payload.

(** A [Date], by the milliseconds [getTime] answers. *)
Record Date := { getTime : Z }.

(** Modelled from the spec: the type [OAuthAccount] of [$utils/oauth] is
    not among the sources; the fields are those the provider exchange
    returns, and all but the identity pair may be missing. *)
Module OAuthAccount.
Record t := mk {
  platform : string;
  account : string;
  refresh : option string;
  access : option string;
  expire : option Date;
  handle : option string;
  name : option string;
  description : option string;
  image : option string
}.
End OAuthAccount.

(** Modelled from the spec: the table [Drifter] of [$db/schema] is not
    among the sources; a row has a local id, the identity pair
    [(platform, account)], which is unique in the table, the two tokens,
    the expiry and the profile fields. *)
Module Drifter.
Record t := mk {
  ID : string;
  platform : string;
  account : string;
  refresh : option string;
  access : option string;
  expire : option Z;
  handle : option string;
  name : option string;
  description : option string;
  image : option string
}.
Definition key (r : t) : string * string := (platform r, account r).
End Drifter.

(** Modelled from the spec: the class [OAuth] of [$utils/oauth] is not
    among the sources.  A provider is one strategy with the two
    capabilities of the interface; [validate] answers [None] when the
    exchange fails. *)
Record Provider := {
  URL : string -> string -> string;
  validate : string -> option string -> option OAuthAccount.t
}.

(** What the handler is linked against: the strategy selection, which
    answers [None] for a platform that is not supported, and the three
    random generators ([generateState] and [generateCodeVerifier] of
    arctic, [random] of [$utils/token]), each a function of the number of
    values drawn so far. *)
Record Env := {
  OAuth : option string -> option Provider;
  generateState : nat -> string;
  generateCodeVerifier : nat -> string;
  random : nat -> nat -> string
}.

(** *** Cookies, the world and the monad *)

(** Modelled from the spec: the module [Token] of [$utils/token] is not
    among the sources.  A cookie holds a token the store signed, with the
    time-to-live it was issued with, or one that has expired, or a value
    that does not verify. *)
Inductive Cookie :=
| Signed (payload : Payload.t) (ttl : option string)
| Expired (payload : Payload.t)
| Malformed (raw : string).

Abbreviation Cookies := (gmap string Cookie).

(** What the handler asks of its collaborators, in order. *)
Inductive Event :=
| token_check (name : string)
| token_revoke (name : string)
| token_issue (name : string) (payload : Payload.t) (ttl : option string)
| oauth_validate (platform : option string) (code : string)
    (code_verifier : option string)
| db_insert (values : Drifter.t).

(** What a request can see and change: the cookies of the browser, as
    the cookie object of the request shows them and as the operations on
    it leave them; the rows of the account table; how many random values
    have been drawn; and the calls made so far. *)
Record World := mkWorld {
  cookies : Cookies;
  DB : list Drifter.t;
  drawn : nat;
  trace : list Event
}.

Inductive Outcome (A : Type) :=
| Return (a : A)
| Throw (what : string).
Arguments Return {A} a.
Arguments Throw {A} what.

(** A computation changes the world and returns or throws; what was done
    before a throw stays done. *)
Definition M (A : Type) : Type := World -> Outcome A * World.

Definition ret {A} (a : A) : M A := fun w => (Return a, w).

Definition throw {A} (what : string) : M A := fun w => (Throw what, w).

Definition bind {A B} (m : M A) (k : A -> M B) : M B :=
  fun w =>
    match m w with
    | (Return a, w') => k a w'
    | (Throw e, w') => (Throw e, w')
    end.

Notation "x <- m ;; k" := (bind m (fun x => k))
  (at level 100, m at next level, right associativity).
Notation "m ;; k" := (bind m (fun _ => k))
  (at level 100, right associativity).

Definition log (e : Event) : M unit :=
  fun w => (Return tt, mkWorld (cookies w) (DB w) (drawn w) (trace w ++ [e])).

Definition draw (gen : nat -> string) : M string :=
  fun w => (Return (gen (drawn w)),
            mkWorld (cookies w) (DB w) (S (drawn w)) (trace w)).

(** *** The token store *)

(** [Token.check], [Token.revoke] and [Token.issue] work on the cookie
    object they are handed, which is that of the world: [check] answers
    the payload of a token that verifies and nothing otherwise, [revoke]
    deletes the cookie, [issue] sets it, over any cookie of that name. *)
Module Token.

Definition read (c : Cookies) (name : string) : option Payload.t :=
  match c !! name with
  | Some (Signed payload _) => Some payload
  | _ => None
  end.

Definition check (name : string) : M (option Payload.t) :=
  log (token_check name) ;;
  fun w => (Return (read (cookies w) name), w).

Definition revoke (name : string) : M unit :=
  log (token_revoke name) ;;
  fun w => (Return tt,
            mkWorld (delete name (cookies w)) (DB w) (drawn w) (trace w)).

Definition issue (name : string) (payload : Payload.t) (ttl : option string)
  : M unit :=
  log (token_issue name payload ttl) ;;
  fun w => (Return tt,
            mkWorld (<[name := Signed payload ttl]> (cookies w)) (DB w)
                    (drawn w) (trace w)).

End Token.

(** *** The account table *)

(** [insert(Drifter).values(v).onConflictDoUpdate({target: [platform,
    account], set: {...}}).returning({ID})]: the row whose identity pair
    is that of [v] takes the six [excluded] fields of [v] and keeps the
    rest; without such a row, [v] is added.  The rows written are
    returned. *)
Definition conflict (values row : Drifter.t) : bool :=
  String.eqb (Drifter.platform row) (Drifter.platform values)
  && String.eqb (Drifter.account row) (Drifter.account values).

Definition excluded (values row : Drifter.t) : Drifter.t :=
  {| Drifter.ID := Drifter.ID row;
     Drifter.platform := Drifter.platform row;
     Drifter.account := Drifter.account row;
     Drifter.refresh := Drifter.refresh row;
     Drifter.access := Drifter.access values;
     Drifter.expire := Drifter.expire values;
     Drifter.handle := Drifter.handle values;
     Drifter.name := Drifter.name values;
     Drifter.description := Drifter.description values;
     Drifter.image := Drifter.image values |}.

Fixpoint onConflictDoUpdate (values : Drifter.t) (table : list Drifter.t)
  : list Drifter.t * list string :=
  match table with
  | [] => ([values], [Drifter.ID values])
  | row :: rest =>
    if conflict values row
    then (excluded values row :: rest, [Drifter.ID row])
    else let (rest', returning) := onConflictDoUpdate values rest in
         (row :: rest', returning)
  end.

Definition upsert (values : Drifter.t) : M (list string) :=
  log (db_insert values) ;;
  fun w =>
    let (table, returning) := onConflictDoUpdate values (DB w) in
    (Return returning, mkWorld (cookies w) table (drawn w) (trace w)).

(** *** Requests and responses *)

Record Request := {
  params_platform : option string;
  searchParams : list (string * string);
  referer : option string
}.

(** [url.searchParams.get(name)]: the first value under the name. *)
Fixpoint searchParams_get (name : string) (l : list (string * string))
  : option string :=
  match l with
  | [] => None
  | (k, v) :: l' => if String.eqb k name then Some v else searchParams_get name l'
  end.

Record Response := {
  body : option string;
  status : Z;
  Location : option string
}.

Definition new_Response (text : string) (code : Z) : Response :=
  {| body := Some text; status := code; Location := None |}.

Definition redirect (path : string) (code : Z) : Response :=
  {| body := None; status := code; Location := Some path |}.

(** [new OAuth(platform)], which throws for a platform that is not
    supported. *)
Definition new_OAuth (env : Env) (platform : option string) : M Provider :=
  match OAuth env platform with
  | Some provider => ret provider
  | None => throw "Unsupported platform"
  end.

(** [provider.validate(code, code_verifier)], the call to the provider. *)
Definition call_validate (platform : option string) (provider : Provider)
  (code : string) (verifier : option string) : M OAuthAccount.t :=
  log (oauth_validate platform code verifier) ;;
  match validate provider code verifier with
  | Some user => ret user
  | None => throw "OAuth exchange failed"
  end.

(** Reading a property of a value that may be [undefined]. *)
Definition defined {A} (v : option A) : M A :=
  match v with
  | Some a => ret a
  | None => throw "TypeError"
  end.

(** The object handed to [values] in the insert. *)
Definition values (ID : string) (user : OAuthAccount.t) : Drifter.t :=
  {| Drifter.ID := ID;
     Drifter.platform := OAuthAccount.platform user;
     Drifter.account := OAuthAccount.account user;
     Drifter.refresh := OAuthAccount.refresh user;
     Drifter.access := OAuthAccount.access user;
     Drifter.expire := getTime <$> OAuthAccount.expire user;
     Drifter.handle := OAuthAccount.handle user;
     Drifter.name := OAuthAccount.name user;
     Drifter.description := OAuthAccount.description user;
     Drifter.image := OAuthAccount.image user |}.

(** *** The handler *)

Definition GET (env : Env) (request : Request) : M Response :=
  let platform := params_platform request in
  let code := searchParams_get "code" (searchParams request) in
  let state := searchParams_get "state" (searchParams request) in
  let error_status := searchParams_get "error" (searchParams request) in
  escort <- Token.check "escort" ;;
  Token.revoke "escort" ;;
  if truthy code then
    if strict_ne (escort ≫= Payload.state) state
    then ret (new_Response "Unauthorized" 401)
    else
      provider <- new_OAuth env platform ;;
      escort_ <- defined escort ;;
      user <- call_validate platform provider (default "" code)
                (Payload.code_verifier escort_) ;;
      ID <- draw (random env 16) ;;
      returning <- upsert (values ID user) ;;
      drifter_ID <- defined (head returning) ;;
      Token.issue "passport" (Payload.passport drifter_ID) None ;;
      ret (redirect (default "/" (Payload.referrer escort_)) 302)
  else if truthy error_status then
    let error_status := default "" error_status in
    if String.eqb error_status "access_denied"
    then ret (redirect (default "/" (escort ≫= Payload.referrer)) 302)
    else if String.eqb error_status "redirect_uri_mismatch"
            || String.eqb error_status "application_suspended"
    then ret (new_Response "Internal Server Error" 500)
    else ret (new_Response "Unauthorized" 401)
  else
    state <- draw (generateState env) ;;
    code_verifier <- draw (generateCodeVerifier env) ;;
    Token.issue "escort"
      (Payload.escort state code_verifier (default "/" (referer request)))
      (Some "5 minutes") ;;
    provider <- new_OAuth env platform ;;
    let link := URL provider state code_verifier in
    ret (redirect link 302).

(** *** Names for what the statements below speak of *)

(** The world once the escort token has been read and revoked, which is
    how every request starts. *)
Definition revoked (w : World) : World :=
  {| cookies := delete "escort" (cookies w);
     DB := DB w;
     drawn := drawn w;
     trace := trace w ++ [token_check "escort"; token_revoke "escort"] |}.

Definition code_of (request : Request) : option string :=
  searchParams_get "code" (searchParams request).
Definition state_of (request : Request) : option string :=
  searchParams_get "state" (searchParams request).
Definition error_of (request : Request) : option string :=
  searchParams_get "error" (searchParams request).

(** The escort token as [Token.check] finds it. *)
Definition escort_of (w : World) : option Payload.t :=
  Token.read (cookies w) "escort".

(** The state of the request is not the state the escort cookie stores.
    A cookie that is missing, has expired or does not verify stores no
    state that could be equal. *)
Definition state_mismatch (w : World) (request : Request) : Prop :=
  match cookies w !! "escort" with
  | Some (Signed escort _) =>
    strict_ne (Payload.state escort) (state_of request) = true
  | Some (Expired _) | Some (Malformed _) | None => True
  end.

(** The row a conflicting insert leaves: the six fields of the [set]
    clause come from the provider, the rest is the row's own. *)
Definition relinked (row : Drifter.t) (user : OAuthAccount.t) : Drifter.t :=
  {| Drifter.ID := Drifter.ID row;
     Drifter.platform := Drifter.platform row;
     Drifter.account := Drifter.account row;
     Drifter.refresh := Drifter.refresh row;
     Drifter.access := OAuthAccount.access user;
     Drifter.expire := getTime <$> OAuthAccount.expire user;
     Drifter.handle := OAuthAccount.handle user;
     Drifter.name := OAuthAccount.name user;
     Drifter.description := OAuthAccount.description user;
     Drifter.image := OAuthAccount.image user |}.

(** How a request with a non-empty code can end. *)
Inductive CodeOutcome (env : Env) (request : Request) (w : World)
  : Outcome Response * World -> Prop :=
| code_csrf :
    strict_ne (escort_of w ≫= Payload.state) (state_of request) = true ->
    CodeOutcome env request w
      (Return (new_Response "Unauthorized" 401), revoked w)
| code_unsupported :
    strict_ne (escort_of w ≫= Payload.state) (state_of request) = false ->
    OAuth env (params_platform request) = None ->
    CodeOutcome env request w (Throw "Unsupported platform", revoked w)
| code_refused code escort provider :
    code_of request = Some code ->
    escort_of w = Some escort ->
    strict_ne (Payload.state escort) (state_of request) = false ->
    OAuth env (params_platform request) = Some provider ->
    validate provider code (Payload.code_verifier escort) = None ->
    CodeOutcome env request w
      (Throw "OAuth exchange failed",
       {| cookies := delete "escort" (cookies w);
          DB := DB w;
          drawn := drawn w;
          trace := trace w ++ [token_check "escort"; token_revoke "escort";
                               oauth_validate (params_platform request) code
                                 (Payload.code_verifier escort)] |})
| code_linked code escort provider user table id :
    code_of request = Some code ->
    escort_of w = Some escort ->
    strict_ne (Payload.state escort) (state_of request) = false ->
    OAuth env (params_platform request) = Some provider ->
    validate provider code (Payload.code_verifier escort) = Some user ->
    onConflictDoUpdate (values (random env 16 (drawn w)) user) (DB w)
    = (table, [id]) ->
    CodeOutcome env request w
      (Return (redirect (default "/" (Payload.referrer escort)) 302),
       {| cookies := <["passport" := Signed (Payload.passport id) None]>
                       (delete "escort" (cookies w));
          DB := table;
          drawn := S (drawn w);
          trace := trace w ++ [token_check "escort"; token_revoke "escort";
                               oauth_validate (params_platform request) code
                                 (Payload.code_verifier escort);
                               db_insert (values (random env 16 (drawn w)) user);
                               token_issue "passport" (Payload.passport id) None]
       |}).

(** *** A sample deployment *)

Definition octocat : OAuthAccount.t :=
  {| OAuthAccount.platform := "github";
     OAuthAccount.account := "583231";
     OAuthAccount.refresh := None;
     OAuthAccount.access := Some "gho_new";
     OAuthAccount.expire := Some {| getTime := 1793664000000 |};
     OAuthAccount.handle := Some "octocat";
     OAuthAccount.name := Some "The Octocat";
     OAuthAccount.description := None;
     OAuthAccount.image := Some "https://github.com/octocat.png" |}.

Definition github : Provider :=
  {| URL := fun state code_verifier =>
       "https://github.com/login/oauth/authorize?state=" +:+ state
       +:+ "&code_challenge=" +:+ code_verifier;
     validate := fun code code_verifier =>
       if String.eqb code "4f2a" then Some octocat else None |}.

Definition site : Env :=
  {| OAuth := fun platform =>
       match platform with
       | Some p => if String.eqb p "github" then Some github else None
       | None => None
       end;
     generateState := fun n => "state-" +:+ pretty n;
     generateCodeVerifier := fun n => "verifier-" +:+ pretty n;
     random := fun len n => String.concat "" (replicate len (pretty (n `mod` 10))) |}.

(** A browser without cookies, before anybody has logged in. *)
Definition first_visit : World :=
  {| cookies := ∅; DB := []; drawn := 0; trace := [] |}.

Definition in_flight_escort : Payload.t :=
  Payload.escort "state-0" "verifier-1" "/note/building-apis".

Definition octocat_row : Drifter.t :=
  {| Drifter.ID := "7777777777777777";
     Drifter.platform := "github";
     Drifter.account := "583231";
     Drifter.refresh := Some "ghr_old";
     Drifter.access := Some "gho_old";
     Drifter.expire := None;
     Drifter.handle := Some "octo";
     Drifter.name := None;
     Drifter.description := Some "hello";
     Drifter.image := None |}.

(** A browser in the middle of a flow, with an account already linked. *)
Definition in_flight : World :=
  {| cookies := {[ "escort" := Signed in_flight_escort (Some "5 minutes") ]};
     DB := [octocat_row];
     drawn := 2;
     trace := [] |}.

Definition request_of (platform : string) (query : list (string * string))
  : Request :=
  {| params_platform := Some platform; searchParams := query;
     referer := None |}.

(** The provider calls back with the code and the state of the flow. *)
Definition callback : Request :=
  request_of "github" [("code", "4f2a"); ("state", "state-0")].

(** A callback with a state the browser was never given. *)
Definition forged_callback : Request :=
  request_of "github" [("code", "4f2a"); ("state", "forged")].

(** Requests whose [code] or [error] parameter is there and empty. *)
Definition empty_code_forged : Request :=
  request_of "github" [("code", ""); ("state", "forged")].
Definition empty_error : Request :=
  request_of "github" [("error", "")].
Definition empty_code_denied : Request :=
  request_of "github"
    [("code", ""); ("state", "state-0"); ("error", "access_denied")].
Definition empty_code_alone : Request :=
  request_of "github" [("code", ""); ("state", "state-0")].

(** The provider reports that the user refused. *)
Definition denied : Request :=
  request_of "github" [("error", "access_denied"); ("state", "state-0")].

(** A callback that carries an error next to the code. *)
Definition callback_with_error : Request :=
  request_of "github"
    [("code", "4f2a"); ("state", "state-0"); ("error", "access_denied")].

(** The start of a flow, for a provider the site has and for one it does
    not have. *)
Definition login : Request :=
  {| params_platform := Some "github"; searchParams := [];
     referer := Some "/note/building-apis" |}.
Definition login_myspace : Request := request_of "myspace" [].

(** The browser in the middle of a flow, with a cookie of the site that
    is no token. *)
Definition in_flight_themed : World :=
  {| cookies := <["theme" := Malformed "dark"]> (cookies in_flight);
     DB := DB in_flight;
     drawn := drawn in_flight;
     trace := trace in_flight |}.

(** A callback with a code the provider does not accept. *)
Definition stale_callback : Request :=
  request_of "github" [("code", "0000"); ("state", "state-0")].

(** A callback that carries a code and no state. *)
Definition stateless_callback : Request :=
  request_of "github" [("code", "4f2a")].

(** The browser after the callback of the flow in flight has linked the
    account and a second flow has been started, and the callback of that
    second flow. *)
Definition second_flow : World :=
  snd (GET site login (snd (GET site callback in_flight))).
Definition second_callback : Request :=
  request_of "github" [("code", "4f2a"); ("state", "state-3")].

End Anchor.

(** ** Facts about the figure plugin *)
Module FigureFacts.
Import Figure.

Lemma height_child (t : string) (p : Properties) (c : list Node) (x : Node) :
  x ∈ c -> height x < height (element t p c).
Proof.
  intros Hx. simpl. apply Nat.lt_succ_r, max_list_elem_of_le.
  now apply list_elem_of_fmap_2.
Qed.

Lemma max_height_bound (l : list Node) (b : nat) :
  Forall (fun x => height x <= b) l -> max_list (height <$> l) <= b.
Proof.
  induction 1 as [|x l Hx _ IH]; [simpl; lia|].
  rewrite fmap_cons. apply Nat.max_lub; [exact Hx | exact IH].
Qed.

Lemma filter_kept_elem (c : list Node) (x : Node) :
  x ∈ List.filter kept c -> x ∈ c.
Proof.
  rewrite !list_elem_of_In, filter_In. tauto.
Qed.

(** A walk over a list stops where one of its steps stops. *)
Lemma mapM_None {A B : Type} (f : A -> option B) (l : list A) :
  Exists (fun x => f x = None) l -> mapM f l = None.
Proof.
  induction 1 as [x l Hx|x l _ IH]; simpl.
  - now rewrite Hx.
  - destruct (f x); [|reflexivity]. simpl. now rewrite IH.
Qed.

(** White space at the start is all there is to trim exactly when every
    character is white space. *)
Lemma trim_start_nil (l : list ascii) :
  trim_start l = [] <-> Forall (fun c => is_white_space c = true) l.
Proof.
  induction l as [|c l IH]; simpl.
  - split; [constructor | reflexivity].
  - destruct (is_white_space c) eqn:E.
    + rewrite IH. split; [now constructor | now inversion 1].
    + split; [discriminate|]. inversion 1. congruence.
Qed.

Lemma trim_start_head (l : list ascii) (c : ascii) (l' : list ascii) :
  trim_start l = c :: l' -> is_white_space c = false.
Proof.
  induction l as [|a l IH]; simpl; [discriminate|].
  destruct (is_white_space a) eqn:E; [exact IH|].
  now intros [= <- _].
Qed.

Lemma trim_empty (s : string) :
  trim s = ""
  <-> Forall (fun c => is_white_space c = true) (list_ascii_of_string s).
Proof.
  unfold trim. rewrite <- trim_start_nil.
  set (l := trim_start (list_ascii_of_string s)).
  split.
  - intros H.
    apply (f_equal list_ascii_of_string) in H.
    rewrite list_ascii_of_string_of_list_ascii in H. simpl in H.
    apply (f_equal (@rev ascii)) in H. rewrite rev_involutive in H.
    simpl in H. apply trim_start_nil in H.
    destruct l as [|c l'] eqn:E; [reflexivity|].
    apply trim_start_head in E.
    apply Forall_rev in H. rewrite rev_involutive in H.
    inversion H. congruence.
  - intros ->. reflexivity.
Qed.

(** X12: the children the plugin leaves out of its view of a paragraph
    are exactly the text nodes made of white space only, the empty text
    among them. *)
Theorem kept_false_iff_blank_text (n : Node) :
  kept n = false
  <-> exists value,
        n = text value
        /\ Forall (fun c => is_white_space c = true)
             (list_ascii_of_string value).
Proof.
  unfold kept. rewrite negb_false_iff.
  destruct n as [t p c|value|value|]; simpl.
  - split; [discriminate|]. now intros (v & H & _).
  - rewrite String.eqb_eq, trim_empty. split.
    + intros H. now exists value.
    + now intros (v & [= ->] & H).
  - split; [discriminate|]. now intros (v & H & _).
  - split; [discriminate|]. now intros (v & H & _).
Qed.

Section Plugin.

Variable Number_toString : Z -> string.
Variable h_properties : Properties -> Properties.
Variable isChild : Properties -> bool.

Local Abbreviation visitor := (Figure.visitor Number_toString h_properties isChild).
Local Abbreviation visit := (Figure.visit Number_toString h_properties isChild).
Local Abbreviation rehypeFigure :=
  (Figure.rehypeFigure Number_toString h_properties isChild).
Local Abbreviation figure_of := (Figure.figure_of Number_toString h_properties).
Local Abbreviation plain_image := (Figure.plain_image isChild).

(** The visitor leaves a node alone unless its parent is the root. *)
Lemma visitor_below_element (n : Node) :
  visitor n (Some parent_element) = Some n.
Proof.
  destruct n as [t p c| | |]; simpl; try reflexivity.
  now rewrite orb_true_r.
Qed.

(** At the root the visitor makes the figure, if [h] reads the
    properties of the image as properties, and is not modelled
    otherwise. *)
Lemma visitor_at_root (n : Node) :
  visitor n (Some parent_root)
  = if plain_image n then Some (figure_of n) else None.
Proof.
  destruct n as [t p c| | |]; try reflexivity.
  unfold Figure.visitor, Figure.figure_of, Figure.plain_image,
    image_paragraph.
  destruct (String.eqb t "p"); simpl; [|reflexivity].
  destruct (List.filter kept c) as [|[ft fp fc| | |] rest]; try reflexivity.
  destruct (String.eqb ft "img"); simpl; [|reflexivity].
  destruct (truthy (fp !! "src")); simpl; [|reflexivity].
  destruct (truthy (fp !! "alt")); simpl; [|reflexivity].
  destruct (isChild fp); simpl; [reflexivity|].
  destruct rest; reflexivity.
Qed.

(** Below an element nothing changes, and a walk with more fuel than the
    node is high returns the node. *)
Lemma visit_below_element (fuel : nat) :
  forall n : Node, height n < fuel -> visit fuel (Some parent_element) n = Some n.
Proof.
  induction fuel as [|fuel IH]; intros n Hn; [lia|].
  simpl. rewrite visitor_below_element.
  destruct n as [t p c| | |]; try reflexivity.
  assert (Hc : mapM (visit fuel (Some parent_element)) c = Some c).
  { apply mapM_Some, Forall_Forall2_diag, Forall_forall.
    intros x Hx. apply IH.
    pose proof (height_child t p c x Hx). lia. }
  now rewrite Hc.
Qed.

(** The children a top-level node has after the visitor ran are no higher
    than the node was. *)
Lemma figure_of_children (n : Node) (t : string) (p : Properties)
  (c : list Node) :
  figure_of n = element t p c -> Forall (fun x => height x <= height n) c.
Proof.
  unfold Figure.figure_of.
  destruct (image_paragraph n) as [[[pp img] rest]|] eqn:E.
  - intros [= <- <- <-].
    destruct n as [nt np nc| | |]; try discriminate.
    unfold image_paragraph in E.
    destruct (String.eqb nt "p"); [|discriminate].
    destruct (List.filter kept nc) as [|[ft fp fc| | |] rest'] eqn:F;
      try discriminate.
    destruct (_ && _); [|discriminate].
    injection E as <- <- <-.
    assert (Hfirst : element ft fp fc ∈ nc).
    { apply filter_kept_elem. rewrite F. left. }
    assert (Hrest : Forall (fun x => height x < height (element nt np nc)) rest').
    { apply Forall_forall. intros x Hx. apply height_child, filter_kept_elem.
      rewrite F. now right. }
    pose proof (height_child nt np nc _ Hfirst) as H1.
    assert (H0 : 1 <= height (element ft fp fc)) by (simpl; lia).
    apply Forall_cons_2; [|apply Forall_cons_2; [|apply Forall_nil_2]].
    + change (1 <= height (element nt np nc)). lia.
    + change (S (max_list
                   (height <$> caption (String_ Number_toString (fp !! "alt"))
                                 rest'))
              <= S (max_list (height <$> nc))).
      apply le_n_S, max_height_bound.
      assert (Hle : Forall (fun x => height x <= max_list (height <$> nc)) rest').
      { eapply Forall_impl; [exact Hrest|].
        intros x Hx. apply Nat.lt_succ_r. exact Hx. }
      unfold caption. destruct rest' as [|r rest'].
      * apply Forall_cons_2; [simpl; lia | apply Forall_nil_2].
      * apply Forall_cons_2; [simpl; lia|].
        apply Forall_cons_2; [simpl; lia | exact Hle].
  - intros ->. apply Forall_forall. intros x Hx.
    pose proof (height_child t p c x Hx). lia.
Qed.

Lemma visit_at_root (fuel : nat) (n : Node) :
  plain_image n = true ->
  height n + 2 <= fuel -> visit fuel (Some parent_root) n = Some (figure_of n).
Proof.
  destruct fuel as [|fuel]; [lia|]. intros Hplain Hn.
  simpl. rewrite visitor_at_root, Hplain.
  destruct (figure_of n) as [t p c| | |] eqn:E; try reflexivity.
  assert (Hc : mapM (visit fuel (Some parent_element)) c = Some c).
  { apply mapM_Some, Forall_Forall2_diag.
    eapply Forall_impl; [exact (figure_of_children n t p c E)|].
    simpl. intros x Hx. apply visit_below_element. lia. }
  now rewrite Hc.
Qed.

Lemma visit_not_modelled (fuel : nat) (n : Node) :
  plain_image n = false -> visit fuel (Some parent_root) n = None.
Proof.
  intros Hplain. destruct fuel as [|fuel]; [reflexivity|].
  simpl. now rewrite visitor_at_root, Hplain.
Qed.

Lemma walk_top_level (fuel : nat) (cs : list Node) :
  Forall (fun n => plain_image n = true) cs ->
  max_list (height <$> cs) + 2 <= fuel ->
  mapM (visit fuel (Some parent_root)) cs = Some (figure_of <$> cs).
Proof.
  intros Hplain Hfuel.
  apply mapM_Some, Forall2_fmap_r, Forall_Forall2_diag, Forall_forall.
  intros x Hx. apply visit_at_root.
  - rewrite Forall_forall in Hplain. now apply Hplain.
  - assert (height x <= max_list (height <$> cs)); [|lia].
    apply max_list_elem_of_le. now apply list_elem_of_fmap_2.
Qed.

(** What the visitor made of a top-level node is no paragraph that opens
    with an image. *)
Lemma image_paragraph_figure_of (n : Node) :
  image_paragraph (figure_of n) = None.
Proof.
  unfold Figure.figure_of.
  destruct (image_paragraph n) as [[[p img] rest]|] eqn:E; [reflexivity|].
  exact E.
Qed.

Lemma figure_of_twice (n : Node) : figure_of (figure_of n) = figure_of n.
Proof.
  unfold Figure.figure_of at 1. now rewrite image_paragraph_figure_of.
Qed.

Lemma plain_image_figure_of (n : Node) : plain_image (figure_of n) = true.
Proof.
  unfold Figure.plain_image. now rewrite image_paragraph_figure_of.
Qed.

Lemma height_figure_of (n : Node) : height (figure_of n) <= S (height n).
Proof.
  destruct (figure_of n) as [t p c| | |] eqn:E; simpl; try lia.
  apply le_n_S, max_height_bound.
  eapply Forall_impl; [exact (figure_of_children n t p c E)|].
  simpl. intros; lia.
Qed.

Lemma height_figures (cs : list Node) :
  max_list (height <$> (figure_of <$> cs)) <= S (max_list (height <$> cs)).
Proof.
  apply max_height_bound, Forall_forall. intros x Hx.
  apply list_elem_of_fmap in Hx as (y & -> & Hy).
  pose proof (height_figure_of y).
  assert (height y <= max_list (height <$> cs)); [|lia].
  apply max_list_elem_of_le. now apply list_elem_of_fmap_2.
Qed.

(** C10, as amended: for a tree in which the images that open a
    top-level paragraph have properties that hastscript reads as
    properties, and with fuel for the height of the tree, the plugin
    returns the tree in which every direct child of the root is replaced
    by [figure_of] it.  So exactly the top-level paragraphs whose first
    child that is not blank text is an [img] with truthy [src] and [alt]
    become a [figure] that keeps the paragraph's properties and holds a
    childless [img] with the image's properties as hastscript normalises
    them and a [figcaption] with the alt text and, when children that
    are not blank text remain, a space and those children; blank text
    children are dropped; every other node, at any depth, is as it
    was. *)
Theorem rehypeFigure_figures (tree : Root) (fuel : nat) :
  Forall (fun n => plain_image n = true) (root_children tree) ->
  tree_height tree + 2 <= fuel ->
  rehypeFigure fuel tree = Some (root (figure_of <$> root_children tree)).
Proof.
  intros Hplain Hfuel. unfold Figure.rehypeFigure.
  now rewrite walk_top_level.
Qed.

(** X10: with fuel for the height of the tree, and images that
    hastscript reads as properties, the plugin returns a tree with as
    many direct children of the root as before, in which every paragraph
    that opened with an image has become a [figure], every other direct
    child is as it was, and no direct child is a paragraph that opens
    with an image. *)
Theorem rehypeFigure_leaves_no_image_paragraph (fuel : nat) (tree : Root) :
  Forall (fun n => plain_image n = true) (root_children tree) ->
  tree_height tree + 2 <= fuel ->
  exists tree',
    rehypeFigure fuel tree = Some tree'
    /\ Forall (fun n => image_paragraph n = None) (root_children tree')
    /\ Forall2
         (fun n n' =>
            match image_paragraph n with
            | Some (properties, _, _) =>
              exists children, n' = element "figure" properties children
            | None => n' = n
            end)
         (root_children tree) (root_children tree').
Proof.
  intros Hplain Hfuel.
  exists (root (figure_of <$> root_children tree)).
  split; [|split].
  - unfold Figure.rehypeFigure. now rewrite walk_top_level.
  - simpl. apply Forall_forall. intros n Hn.
    apply list_elem_of_fmap in Hn as (m & -> & _).
    apply image_paragraph_figure_of.
  - simpl. apply Forall2_fmap_r, Forall_Forall2_diag, Forall_forall.
    intros n _. unfold compose, Figure.figure_of. cbv beta.
    destruct (image_paragraph n) as [[[p img] rest]|]; [eauto|reflexivity].
Qed.

(** X11: the plugin is idempotent: with fuel for a tree one level
    higher, running it on its own result changes nothing. *)
Theorem rehypeFigure_idempotent (fuel : nat) (tree : Root) :
  tree_height tree + 3 <= fuel ->
  rehypeFigure fuel tree ≫= rehypeFigure fuel = rehypeFigure fuel tree.
Proof.
  intros Hfuel. unfold tree_height in Hfuel. unfold Figure.rehypeFigure.
  destruct (decide (Forall (fun n => plain_image n = true)
                      (root_children tree))) as [Hplain|Hodd].
  - rewrite (walk_top_level fuel (root_children tree)) by (assumption || lia).
    simpl.
    rewrite (walk_top_level fuel (figure_of <$> root_children tree)).
    + simpl. f_equal. f_equal.
      rewrite <- list_fmap_compose. apply list_fmap_ext.
      intros i n _. apply figure_of_twice.
    + apply Forall_forall. intros n Hn.
      apply list_elem_of_fmap in Hn as (m & -> & _).
      apply plain_image_figure_of.
    + pose proof (height_figures (root_children tree)). lia.
  - rewrite (mapM_None (visit fuel (Some parent_root)) (root_children tree));
      [reflexivity|].
    apply not_Forall_Exists in Hodd; [|intros n; apply _].
    eapply Exists_impl; [exact Hodd|]. simpl. intros n Hn.
    apply visit_not_modelled. now destruct (plain_image n).
Qed.

End Plugin.

Lemma rehypeFigure_figures_witness :
  rehypeFigure digits as_given typed 5 note
  = Some (root (figure_of digits as_given <$> root_children note)).
Proof.
  apply rehypeFigure_figures.
  - vm_compute. repeat constructor.
  - vm_compute. lia.
Defined.

(** C10, as stated, fails on [note], whose images have a [src] and an
    [alt] that are strings and no [type]: the second paragraph has a
    child after the image, a blank text, and its caption gets neither a
    space nor that child; the third paragraph has an image with [src] and
    [alt] present, the [alt] empty, and stays a paragraph. *)
Lemma rehypeFigure_not_as_claimed :
  rehypeFigure digits as_given typed 5 note
  = Some (root
      [ element "figure" ∅
          [photo; element "figcaption" ∅
                    [text "Photo from the talk"; text " ";
                     element "em" ∅ [text "Lagos"]]];
        element "figure" ∅
          [photo; element "figcaption" ∅ [text "Photo from the talk"]];
        element "p" ∅ [untitled];
        element "p" ∅ [text "Here are some photos from the talk:"];
        element "blockquote" ∅ [element "p" ∅ [photo]] ])
  /\ figure_as_claimed digits as_given <$> root_children note
     = [ element "figure" ∅
           [photo; element "figcaption" ∅
                     [text "Photo from the talk"; text " "; text " ";
                      element "em" ∅ [text "Lagos"]]];
         element "figure" ∅
           [photo; element "figcaption" ∅
                     [text "Photo from the talk"; text " "; text " "]];
         element "figure" ∅
           [untitled; element "figcaption" ∅ [text ""]];
         element "p" ∅ [text "Here are some photos from the talk:"];
         element "blockquote" ∅ [element "p" ∅ [photo]] ]
  /\ rehypeFigure digits as_given typed 5 note
     <> Some (root (figure_as_claimed digits as_given <$> root_children note)).
Proof.
  split; [|split].
  - vm_compute. reflexivity.
  - vm_compute. reflexivity.
  - vm_compute. discriminate.
Qed.

Lemma rehypeFigure_leaves_no_image_paragraph_witness :
  exists tree',
    rehypeFigure digits as_given typed 5 note = Some tree'
    /\ Forall (fun n => image_paragraph n = None) (root_children tree')
    /\ Forall2
         (fun n n' =>
            match image_paragraph n with
            | Some (properties, _, _) =>
              exists children, n' = element "figure" properties children
            | None => n' = n
            end)
         (root_children note) (root_children tree').
Proof.
  apply rehypeFigure_leaves_no_image_paragraph.
  - vm_compute. repeat constructor.
  - vm_compute. lia.
Defined.

Lemma rehypeFigure_idempotent_witness :
  rehypeFigure digits as_given typed 6 note
  ≫= rehypeFigure digits as_given typed 6
  = rehypeFigure digits as_given typed 6 note.
Proof.
  apply rehypeFigure_idempotent. vm_compute. lia.
Defined.

End FigureFacts.

(** ** Facts about the route handler *)
Module AnchorFacts.
Import Anchor.

Ltac run :=
  repeat progress
    (unfold GET, bind, Token.check, Token.revoke, Token.issue, upsert, log,
       draw, ret, throw, new_OAuth, call_validate, defined, revoked,
       code_of, state_of, error_of, escort_of in *;
     simpl in *).

(** *** The upsert *)

Lemma conflict_key (values row : Drifter.t) :
  conflict values row = true <-> Drifter.key row = Drifter.key values.
Proof.
  unfold conflict, Drifter.key.
  rewrite andb_true_iff, !String.eqb_eq. split.
  - intros [-> ->]. reflexivity.
  - intros [= -> ->]. split; reflexivity.
Qed.

Lemma no_conflict_key (values row : Drifter.t) :
  conflict values row = false <-> Drifter.key row <> Drifter.key values.
Proof.
  rewrite <- conflict_key. destruct (conflict values row); split; congruence.
Qed.

(** Without a row of that identity pair the values are added as one new
    row, and its id is returned. *)
Lemma onConflictDoUpdate_new (values : Drifter.t) (table : list Drifter.t) :
  Forall (fun row => Drifter.key row <> Drifter.key values) table ->
  onConflictDoUpdate values table = (table ++ [values], [Drifter.ID values]).
Proof.
  induction 1 as [|row rest Hrow _ IH]; simpl; [reflexivity|].
  apply no_conflict_key in Hrow. now rewrite Hrow, IH.
Qed.

(** The first row of that identity pair is rewritten in place, and its id
    is returned. *)
Lemma onConflictDoUpdate_existing (values row : Drifter.t)
  (before after : list Drifter.t) :
  Forall (fun r => Drifter.key r <> Drifter.key values) before ->
  Drifter.key row = Drifter.key values ->
  onConflictDoUpdate values (before ++ row :: after)
  = (before ++ excluded values row :: after, [Drifter.ID row]).
Proof.
  intros Hbefore Hrow.
  induction Hbefore as [|r rest Hr _ IH]; simpl.
  - apply conflict_key in Hrow. now rewrite Hrow.
  - apply no_conflict_key in Hr. now rewrite Hr, IH.
Qed.

(** Every table splits at the first row of a given identity pair, if
    there is one. *)
Lemma first_conflict (values : Drifter.t) (table : list Drifter.t) :
  Forall (fun row => Drifter.key row <> Drifter.key values) table
  \/ exists before row after,
       table = before ++ row :: after
       /\ Forall (fun r => Drifter.key r <> Drifter.key values) before
       /\ Drifter.key row = Drifter.key values.
Proof.
  induction table as [|r rest IH]; [left; constructor|].
  destruct (conflict values r) eqn:E.
  - right. exists [], r, rest. apply conflict_key in E. auto.
  - apply no_conflict_key in E.
    destruct IH as [IH|(before & row & after & -> & Hb & Hr)].
    + left. now constructor.
    + right. exists (r :: before), row, after. auto.
Qed.

(** One id is returned, that of a row of the new table which has the
    identity pair and the six mutable fields of the values. *)
Lemma onConflictDoUpdate_returning (values : Drifter.t)
  (table : list Drifter.t) :
  exists id row,
    snd (onConflictDoUpdate values table) = [id]
    /\ row ∈ fst (onConflictDoUpdate values table)
    /\ Drifter.ID row = id
    /\ Drifter.key row = Drifter.key values
    /\ excluded values row = row.
Proof.
  destruct (first_conflict values table)
    as [Hnew|(before & row & after & -> & Hb & Hr)].
  - rewrite onConflictDoUpdate_new by assumption.
    exists (Drifter.ID values), values. simpl.
    repeat split; [set_solver | now destruct values].
  - rewrite onConflictDoUpdate_existing by assumption.
    exists (Drifter.ID row), (excluded values row). simpl.
    repeat split; [set_solver | exact Hr].
Qed.

(** With a unique identity pair, the rows before a row of the pair do
    not have it. *)
Lemma unique_key_before (values row : Drifter.t)
  (before after : list Drifter.t) :
  NoDup (Drifter.key <$> before ++ row :: after) ->
  Drifter.key row = Drifter.key values ->
  Forall (fun r => Drifter.key r <> Drifter.key values) before.
Proof.
  intros Hnd Hrow. apply Forall_forall. intros r Hr Hk.
  rewrite fmap_app, fmap_cons in Hnd.
  apply NoDup_app in Hnd as (_ & Hdisj & _).
  apply (Hdisj (Drifter.key r)).
  - now apply list_elem_of_fmap_2.
  - rewrite Hk, <- Hrow. left.
Qed.

(** The identity pair stays unique. *)
Lemma onConflictDoUpdate_unique (values : Drifter.t) (table : list Drifter.t) :
  NoDup (Drifter.key <$> table) ->
  NoDup (Drifter.key <$> fst (onConflictDoUpdate values table)).
Proof.
  intros Hnd.
  destruct (first_conflict values table)
    as [Hnew|(before & row & after & -> & Hb & Hr)].
  - rewrite onConflictDoUpdate_new by assumption. simpl.
    rewrite fmap_app. apply NoDup_app. split; [exact Hnd|]. split.
    + intros k Hk Hin. apply list_elem_of_fmap in Hk as (r & Hkr & Hr).
      rewrite Forall_forall in Hnew. apply (Hnew r Hr).
      apply list_elem_of_fmap in Hin as (v & Hkv & Hv).
      apply list_elem_of_singleton in Hv. congruence.
    + apply NoDup_singleton.
  - rewrite onConflictDoUpdate_existing by assumption. simpl.
    now rewrite fmap_app, fmap_cons in *.
Qed.

(** *** The branches of the handler *)

Lemma GET_csrf (env : Env) (request : Request) (w : World) :
  truthy (code_of request) = true ->
  strict_ne (escort_of w ≫= Payload.state) (state_of request) = true ->
  GET env request w = (Return (new_Response "Unauthorized" 401), revoked w).
Proof.
  intros Hc Hs. run. rewrite Hc, Hs. now rewrite <- app_assoc.
Qed.

Lemma GET_error (env : Env) (request : Request) (w : World) (e : string) :
  truthy (code_of request) = false ->
  error_of request = Some e -> e <> "" ->
  GET env request w
  = (Return
       (if String.eqb e "access_denied"
        then redirect (default "/" (escort_of w ≫= Payload.referrer)) 302
        else if String.eqb e "redirect_uri_mismatch"
                || String.eqb e "application_suspended"
        then new_Response "Internal Server Error" 500
        else new_Response "Unauthorized" 401),
     revoked w).
Proof.
  intros Hc He Hne. run. rewrite Hc, He. simpl.
  apply String.eqb_neq in Hne. rewrite Hne. simpl.
  rewrite <- app_assoc. simpl.
  destruct (String.eqb e "access_denied"); [reflexivity|].
  destruct (_ || _); reflexivity.
Qed.

(** The world of an initiate request after the escort token was issued. *)
Lemma GET_initiate (env : Env) (request : Request) (w : World) :
  truthy (code_of request) = false ->
  truthy (error_of request) = false ->
  let state := generateState env (drawn w) in
  let code_verifier := generateCodeVerifier env (S (drawn w)) in
  let escort :=
    Payload.escort state code_verifier (default "/" (referer request)) in
  GET env request w
  = (match OAuth env (params_platform request) with
     | Some provider => Return (redirect (URL provider state code_verifier) 302)
     | None => Throw "Unsupported platform"
     end,
     {| cookies := <["escort" := Signed escort (Some "5 minutes")]> (cookies w);
        DB := DB w;
        drawn := S (S (drawn w));
        trace := trace w ++ [token_check "escort"; token_revoke "escort";
                             token_issue "escort" escort (Some "5 minutes")] |}).
Proof.
  intros Hc He. run. rewrite Hc, He. simpl.
  rewrite insert_delete_eq, <- !app_assoc. simpl.
  destruct (OAuth env (params_platform request)); reflexivity.
Qed.

(** The world of a callback whose state matches, by how far it gets. *)
Lemma GET_callback_unsupported (env : Env) (request : Request) (w : World) :
  truthy (code_of request) = true ->
  strict_ne (escort_of w ≫= Payload.state) (state_of request) = false ->
  OAuth env (params_platform request) = None ->
  GET env request w = (Throw "Unsupported platform", revoked w).
Proof.
  intros Hc Hs Ho. run. rewrite Hc, Hs, Ho. now rewrite <- app_assoc.
Qed.

Lemma matching_state_escort (escort : option Payload.t) (state : option string) :
  strict_ne (escort ≫= Payload.state) state = false ->
  exists e s, escort = Some e /\ Payload.state e = Some s /\ state = Some s.
Proof.
  destruct escort as [e|]; [|discriminate]. simpl.
  destruct (Payload.state e) as [s|] eqn:E; [|discriminate].
  destruct state as [s'|]; [|discriminate]. simpl.
  intros H. apply negb_false_iff, String.eqb_eq in H. subst. eauto.
Qed.

Lemma GET_callback_refused (env : Env) (request : Request) (w : World)
  (code : string) (escort : Payload.t) (provider : Provider) :
  code_of request = Some code -> code <> "" ->
  escort_of w = Some escort ->
  strict_ne (Payload.state escort) (state_of request) = false ->
  OAuth env (params_platform request) = Some provider ->
  validate provider code (Payload.code_verifier escort) = None ->
  GET env request w
  = (Throw "OAuth exchange failed",
     {| cookies := delete "escort" (cookies w);
        DB := DB w;
        drawn := drawn w;
        trace := trace w ++ [token_check "escort"; token_revoke "escort";
                             oauth_validate (params_platform request) code
                               (Payload.code_verifier escort)] |}).
Proof.
  intros Hc Hne He Hs Ho Hv. run. rewrite Hc, He. simpl.
  apply String.eqb_neq in Hne. rewrite Hne. simpl.
  rewrite Hs, Ho. simpl. rewrite Hv. run. now rewrite <- !app_assoc.
Qed.

Lemma GET_callback (env : Env) (request : Request) (w : World)
  (code : string) (escort : Payload.t) (provider : Provider)
  (user : OAuthAccount.t) (table : list Drifter.t) (id : string) :
  code_of request = Some code -> code <> "" ->
  escort_of w = Some escort ->
  strict_ne (Payload.state escort) (state_of request) = false ->
  OAuth env (params_platform request) = Some provider ->
  validate provider code (Payload.code_verifier escort) = Some user ->
  onConflictDoUpdate (values (random env 16 (drawn w)) user) (DB w)
  = (table, [id]) ->
  GET env request w
  = (Return (redirect (default "/" (Payload.referrer escort)) 302),
     {| cookies := <["passport" := Signed (Payload.passport id) None]>
                     (delete "escort" (cookies w));
        DB := table;
        drawn := S (drawn w);
        trace := trace w ++ [token_check "escort"; token_revoke "escort";
                             oauth_validate (params_platform request) code
                               (Payload.code_verifier escort);
                             db_insert (values (random env 16 (drawn w)) user);
                             token_issue "passport" (Payload.passport id) None]
     |}).
Proof.
  intros Hc Hne He Hs Ho Hv Hu. run. rewrite Hc, He. simpl.
  apply String.eqb_neq in Hne. rewrite Hne. simpl.
  rewrite Hs, Ho. simpl. rewrite Hv. run. rewrite Hu. run.
  now rewrite <- !app_assoc.
Qed.

Lemma truthy_Some (o : option string) :
  truthy o = true <-> exists s, o = Some s /\ s <> "".
Proof.
  destruct o as [s|]; simpl.
  - rewrite negb_true_iff, String.eqb_neq. split; [eauto|].
    now intros (s' & [= <-] & H).
  - split; [discriminate|]. now intros (s' & H & _).
Qed.

Lemma state_mismatch_strict_ne (w : World) (request : Request) :
  state_mismatch w request ->
  strict_ne (escort_of w ≫= Payload.state) (state_of request) = true.
Proof.
  unfold state_mismatch, escort_of, Token.read.
  destruct (cookies w !! "escort") as [[escort ttl|escort|raw]|];
    simpl; auto.
Qed.

Lemma GET_code (env : Env) (request : Request) (w : World) :
  truthy (code_of request) = true ->
  CodeOutcome env request w (GET env request w).
Proof.
  intros Hc. pose proof Hc as Hc'.
  apply truthy_Some in Hc' as (code & Hcode & Hne).
  destruct (strict_ne (escort_of w ≫= Payload.state) (state_of request)) eqn:Hs.
  { rewrite GET_csrf by assumption. now constructor. }
  pose proof Hs as Hs'.
  apply matching_state_escort in Hs' as (escort & s & He & _ & _).
  rewrite He in Hs. simpl in Hs.
  destruct (OAuth env (params_platform request)) as [provider|] eqn:Ho.
  2:{ rewrite GET_callback_unsupported; [|assumption| |assumption].
      - constructor; [|assumption]. now rewrite He.
      - now rewrite He. }
  destruct (validate provider code (Payload.code_verifier escort))
    as [user|] eqn:Hv.
  2:{ rewrite (GET_callback_refused env request w code escort provider)
        by assumption.
      now apply (code_refused env request w code escort provider). }
  destruct (onConflictDoUpdate_returning
              (values (random env 16 (drawn w)) user) (DB w))
    as (id & row & Hret & _).
  destruct (onConflictDoUpdate (values (random env 16 (drawn w)) user) (DB w))
    as [table returning] eqn:Hu.
  simpl in Hret. subst returning.
  rewrite (GET_callback env request w code escort provider user table id)
    by assumption.
  now apply (code_linked env request w code escort provider user table id).
Qed.

(** X4: the handler keeps the identity pair unique in the table:
    whatever the request and however it ends, a table without two rows
    of the same [(platform, account)] is left without two such rows. *)
Lemma GET_keeps_pairs_unique (env : Env) (request : Request) (w : World) :
  NoDup (Drifter.key <$> DB w) ->
  NoDup (Drifter.key <$> DB (snd (GET env request w))).
Proof.
  intros Hnd.
  destruct (truthy (code_of request)) eqn:Hc.
  - destruct (GET_code env request w Hc)
      as [| | |code escort provider user table id _ _ _ _ _ Hu];
      simpl; try assumption.
    pose proof (onConflictDoUpdate_unique
                  (values (random env 16 (drawn w)) user) (DB w) Hnd) as H.
    now rewrite Hu in H.
  - destruct (truthy (error_of request)) eqn:He.
    + apply truthy_Some in He as (e & He & Hne).
      now rewrite (GET_error env request w e).
    + now rewrite GET_initiate.
Qed.

(** *** The claims *)

(** C1, as amended: a request with a non-empty [code] whose [state] is
    not the state stored in the escort cookie, which includes an escort
    cookie that is missing, expired or malformed, is answered with 401;
    the provider is not called and the account table is not written:
    the handler has read and revoked the escort token and done nothing
    else. *)
Theorem csrf_mismatch_unauthorized (env : Env) (request : Request)
  (w : World) (code : string) :
  code_of request = Some code -> code <> "" ->
  state_mismatch w request ->
  exists w',
    GET env request w = (Return (new_Response "Unauthorized" 401), w')
    /\ DB w' = DB w
    /\ trace w' = trace w ++ [token_check "escort"; token_revoke "escort"].
Proof.
  intros Hc Hne Hs. exists (revoked w). split; [|now repeat split].
  apply GET_csrf.
  - apply truthy_Some. eauto.
  - now apply state_mismatch_strict_ne.
Qed.

Lemma csrf_mismatch_unauthorized_witness :
  exists w',
    GET site forged_callback in_flight
    = (Return (new_Response "Unauthorized" 401), w')
    /\ DB w' = DB in_flight
    /\ trace w' = trace in_flight
                  ++ [token_check "escort"; token_revoke "escort"].
Proof.
  apply (csrf_mismatch_unauthorized site forged_callback in_flight "4f2a").
  - reflexivity.
  - discriminate.
  - vm_compute. reflexivity.
Defined.

(** C1, as stated, fails for a [code] parameter that is there and empty:
    the state differs from the stored one, and the request is taken for
    the start of a flow and answered with a redirect to the provider. *)
Lemma empty_code_not_unauthorized :
  code_of empty_code_forged = Some ""
  /\ state_mismatch in_flight empty_code_forged
  /\ fst (GET site empty_code_forged in_flight)
     = Return (redirect
         "https://github.com/login/oauth/authorize?state=state-2&code_challenge=verifier-3"
         302).
Proof.
  split; [reflexivity|]. split; [vm_compute; reflexivity|].
  vm_compute. reflexivity.
Qed.

(** C5: without a [code], [error=access_denied] is answered with a 302
    redirect to the referrer of the escort token, or to [/] when there is
    no escort token or it has no referrer; [redirect_uri_mismatch] and
    [application_suspended] with 500; any other non-empty error with
    401. *)
Theorem callback_error_responses (env : Env) (request : Request) (w : World)
  (e : string) :
  code_of request = None ->
  error_of request = Some e ->
  (e = "access_denied" ->
   fst (GET env request w)
   = Return (redirect (default "/" (escort_of w ≫= Payload.referrer)) 302))
  /\ (e = "redirect_uri_mismatch" \/ e = "application_suspended" ->
      fst (GET env request w)
      = Return (new_Response "Internal Server Error" 500))
  /\ (e <> "" -> e <> "access_denied" -> e <> "redirect_uri_mismatch" ->
      e <> "application_suspended" ->
      fst (GET env request w) = Return (new_Response "Unauthorized" 401)).
Proof.
  intros Hc He.
  assert (Hcode : truthy (code_of request) = false) by now rewrite Hc.
  repeat split.
  - intros ->. now rewrite (GET_error env request w "access_denied").
  - intros [-> | ->].
    + now rewrite (GET_error env request w "redirect_uri_mismatch").
    + now rewrite (GET_error env request w "application_suspended").
  - intros H0 H1 H2 H3. rewrite (GET_error env request w e) by assumption.
    apply String.eqb_neq in H1, H2, H3. simpl. now rewrite H1, H2, H3.
Qed.

Lemma callback_error_responses_witness :
  fst (GET site denied in_flight)
  = Return (redirect "/note/building-apis" 302).
Proof.
  apply (callback_error_responses site denied in_flight "access_denied");
    reflexivity.
Defined.

(** C7, as amended: a request with neither [code] nor [error], for a
    supported platform, draws a state and a code verifier from the
    generators, issues an escort cookie that holds both and the referrer
    of the request ([/] without one) with a time-to-live of five
    minutes, and answers with a 302 redirect to the authorization URL
    the provider builds from that state and that verifier.  The two
    values are new draws: the count of draws goes up by two, and a
    generator that does not repeat itself gives a state and a verifier
    that no earlier draw gave. *)
Theorem initiate_redirects (env : Env) (request : Request) (w : World)
  (provider : Provider) :
  code_of request = None ->
  error_of request = None ->
  OAuth env (params_platform request) = Some provider ->
  exists w',
    GET env request w
    = (Return (redirect (URL provider (generateState env (drawn w))
                           (generateCodeVerifier env (S (drawn w)))) 302), w')
    /\ cookies w' !! "escort"
       = Some (Signed
                 (Payload.escort (generateState env (drawn w))
                    (generateCodeVerifier env (S (drawn w)))
                    (default "/" (referer request)))
                 (Some "5 minutes"))
    /\ drawn w' = S (S (drawn w))
    /\ DB w' = DB w
    /\ (Inj eq eq (generateState env) ->
        forall n, n < drawn w ->
          generateState env n <> generateState env (drawn w))
    /\ (Inj eq eq (generateCodeVerifier env) ->
        forall n, n < S (drawn w) ->
          generateCodeVerifier env n
          <> generateCodeVerifier env (S (drawn w))).
Proof.
  intros Hc He Ho. eexists. split.
  - rewrite GET_initiate by (now rewrite ?Hc, ?He). rewrite Ho. reflexivity.
  - simpl. rewrite lookup_insert_eq. repeat split.
    + intros Hinj n Hn Heq. apply Hinj in Heq. lia.
    + intros Hinj n Hn Heq. apply Hinj in Heq. lia.
Qed.

Lemma initiate_redirects_witness :
  exists w',
    GET site login first_visit
    = (Return (redirect (URL github (generateState site 0)
                           (generateCodeVerifier site 1)) 302), w')
    /\ cookies w' !! "escort"
       = Some (Signed
                 (Payload.escort (generateState site 0)
                    (generateCodeVerifier site 1) "/note/building-apis")
                 (Some "5 minutes"))
    /\ drawn w' = 2
    /\ DB w' = []
    /\ (Inj eq eq (generateState site) ->
        forall n, n < 0 -> generateState site n <> generateState site 0)
    /\ (Inj eq eq (generateCodeVerifier site) ->
        forall n, n < 1 ->
          generateCodeVerifier site n <> generateCodeVerifier site 1).
Proof.
  apply (initiate_redirects site login first_visit github); reflexivity.
Defined.

(** C7, as stated, fails for a platform the site does not have: the
    request has neither [code] nor [error], and the handler throws where
    it selects the provider instead of answering with a redirect. *)
Lemma initiate_unsupported_no_redirect :
  code_of login_myspace = None
  /\ error_of login_myspace = None
  /\ fst (GET site login_myspace first_visit) = Throw "Unsupported platform".
Proof.
  repeat split; vm_compute; reflexivity.
Qed.

(** C9: a request that starts a flow revokes the escort cookie before it
    issues the new one, whatever the platform; afterwards the browser
    holds the new escort token and no other, and a callback that carries
    the state of an earlier flow is refused. *)
Theorem initiate_replaces_escort (env : Env) (request : Request) (w : World) :
  code_of request = None ->
  error_of request = None ->
  exists escort,
    Payload.state escort = Some (generateState env (drawn w))
    /\ trace (snd (GET env request w))
       = trace w ++ [token_check "escort"; token_revoke "escort";
                     token_issue "escort" escort (Some "5 minutes")]
    /\ cookies (snd (GET env request w)) !! "escort"
       = Some (Signed escort (Some "5 minutes"))
    /\ forall env' earlier,
         truthy (code_of earlier) = true ->
         state_of earlier <> Some (generateState env (drawn w)) ->
         fst (GET env' earlier (snd (GET env request w)))
         = Return (new_Response "Unauthorized" 401).
Proof.
  intros Hc He.
  exists (Payload.escort (generateState env (drawn w))
            (generateCodeVerifier env (S (drawn w)))
            (default "/" (referer request))).
  rewrite GET_initiate by (now rewrite ?Hc, ?He). simpl.
  split; [reflexivity|]. split; [reflexivity|].
  split; [now rewrite lookup_insert_eq|].
  intros env' earlier Hcode Hstate.
  rewrite GET_csrf; [reflexivity|exact Hcode|].
  unfold escort_of, Token.read. simpl. rewrite lookup_insert_eq. simpl.
  destruct (state_of earlier) as [s|]; [|reflexivity].
  apply negb_true_iff, String.eqb_neq. congruence.
Qed.

Lemma initiate_replaces_escort_witness :
  exists escort,
    Payload.state escort = Some (generateState site 2)
    /\ trace (snd (GET site login in_flight))
       = trace in_flight ++ [token_check "escort"; token_revoke "escort";
                             token_issue "escort" escort (Some "5 minutes")]
    /\ cookies (snd (GET site login in_flight)) !! "escort"
       = Some (Signed escort (Some "5 minutes"))
    /\ forall env' earlier,
         truthy (code_of earlier) = true ->
         state_of earlier <> Some (generateState site 2) ->
         fst (GET env' earlier (snd (GET site login in_flight)))
         = Return (new_Response "Unauthorized" 401).
Proof.
  apply (initiate_replaces_escort site login in_flight); reflexivity.
Defined.

(** C2, as amended: after a request with a non-empty [code] or a
    non-empty [error], however it ends, the escort cookie is gone, and a
    later request that presents a code, the same or another, is refused
    with 401 without a call to the provider or a write to the table. *)
Theorem callback_revokes_escort (env : Env) (request : Request) (w : World) :
  truthy (code_of request) = true \/ truthy (error_of request) = true ->
  cookies (snd (GET env request w)) !! "escort" = None
  /\ forall env' replay,
       truthy (code_of replay) = true ->
       GET env' replay (snd (GET env request w))
       = (Return (new_Response "Unauthorized" 401),
          revoked (snd (GET env request w))).
Proof.
  intros H.
  assert (Hgone : cookies (snd (GET env request w)) !! "escort" = None).
  { destruct (truthy (code_of request)) eqn:Hc.
    - destruct (GET_code env request w Hc); simpl;
        rewrite ?lookup_insert_ne by discriminate; apply lookup_delete_eq.
    - destruct H as [H|H]; [discriminate|].
      apply truthy_Some in H as (e & He & Hne).
      rewrite (GET_error env request w e) by assumption.
      apply lookup_delete_eq. }
  split; [exact Hgone|].
  intros env' replay Hc. apply GET_csrf; [exact Hc|].
  unfold escort_of, Token.read. now rewrite Hgone.
Qed.

Lemma callback_revokes_escort_witness :
  cookies (snd (GET site callback in_flight)) !! "escort" = None
  /\ forall env' replay,
       truthy (code_of replay) = true ->
       GET env' replay (snd (GET site callback in_flight))
       = (Return (new_Response "Unauthorized" 401),
          revoked (snd (GET site callback in_flight))).
Proof.
  apply (callback_revokes_escort site callback in_flight).
  left. reflexivity.
Defined.

(** C2, as stated, fails for an [error] parameter that is there and
    empty: the request is taken for the start of a flow, and the browser
    holds an escort cookie afterwards. *)
Lemma empty_error_keeps_escort :
  error_of empty_error = Some ""
  /\ cookies (snd (GET site empty_error in_flight)) !! "escort"
     = Some (Signed (Payload.escort "state-2" "verifier-3" "/")
               (Some "5 minutes")).
Proof.
  split; [reflexivity|]. vm_compute. reflexivity.
Qed.

(** C8, as amended: when the [code] is not empty, the callback-success
    path runs: the request ends as [CodeOutcome] says, with 401 when the
    state does not match, and else with the selection of the provider,
    the exchange, the insert and the passport, as far as they get.  The
    [error] parameter plays no part: any request with the same platform,
    code and state is treated alike, whatever else it carries. *)
Theorem code_precedes_error (env : Env) (request : Request) (w : World) :
  truthy (code_of request) = true ->
  CodeOutcome env request w (GET env request w)
  /\ forall request',
       params_platform request' = params_platform request ->
       code_of request' = code_of request ->
       state_of request' = state_of request ->
       GET env request' w = GET env request w.
Proof.
  intros Hc. split; [now apply GET_code|].
  intros request' Hp Hcode Hstate. unfold GET.
  fold (code_of request) (code_of request')
       (state_of request) (state_of request').
  rewrite Hp, Hcode, Hstate. unfold bind.
  destruct (Token.check "escort" w) as [[escort|what] w1]; [|reflexivity].
  destruct (Token.revoke "escort" w1) as [[[]|what] w2]; [|reflexivity].
  now rewrite Hc.
Qed.

Lemma code_precedes_error_witness :
  CodeOutcome site callback_with_error in_flight
    (GET site callback_with_error in_flight)
  /\ forall request',
       params_platform request' = params_platform callback_with_error ->
       code_of request' = code_of callback_with_error ->
       state_of request' = state_of callback_with_error ->
       GET site request' in_flight = GET site callback_with_error in_flight.
Proof.
  apply (code_precedes_error site callback_with_error in_flight).
  reflexivity.
Defined.

(** C8, as stated, fails when the [code] parameter is there and empty:
    the error decides, and the answer is the redirect to the referrer of
    a refused consent, where the same request without the error starts a
    flow. *)
Lemma empty_code_error_decides :
  code_of empty_code_denied = Some ""
  /\ error_of empty_code_denied = Some "access_denied"
  /\ fst (GET site empty_code_denied in_flight)
     = Return (redirect "/note/building-apis" 302)
  /\ fst (GET site empty_code_alone in_flight)
     = Return (redirect
         "https://github.com/login/oauth/authorize?state=state-2&code_challenge=verifier-3"
         302).
Proof.
  repeat split; vm_compute; reflexivity.
Qed.

Lemma excluded_values (ID : string) (user : OAuthAccount.t) (row : Drifter.t) :
  excluded (values ID user) row = relinked row user.
Proof. reflexivity. Qed.

Lemma key_values (ID : string) (user : OAuthAccount.t) :
  Drifter.key (values ID user)
  = (OAuthAccount.platform user, OAuthAccount.account user).
Proof. reflexivity. Qed.

(** C3: on a callback that succeeds, a pair [(platform, account)] that
    no row has gets exactly one new row, at the end of the table, with
    the values of the provider and a fresh id; a pair that a row has
    leaves the table with the same rows in the same places, that row
    with [access], [expire], [handle], [name], [description] and [image]
    of the provider and its own [ID], [platform], [account] and
    [refresh]. *)
Theorem callback_upserts_account (env : Env) (request : Request) (w : World)
  (code : string) (escort : Payload.t) (provider : Provider)
  (user : OAuthAccount.t) :
  code_of request = Some code -> code <> "" ->
  escort_of w = Some escort ->
  strict_ne (Payload.state escort) (state_of request) = false ->
  OAuth env (params_platform request) = Some provider ->
  validate provider code (Payload.code_verifier escort) = Some user ->
  NoDup (Drifter.key <$> DB w) ->
  ((OAuthAccount.platform user, OAuthAccount.account user)
     ∉ Drifter.key <$> DB w ->
   DB (snd (GET env request w))
   = DB w ++ [values (random env 16 (drawn w)) user])
  /\ (forall before row after,
        DB w = before ++ row :: after ->
        Drifter.key row
        = (OAuthAccount.platform user, OAuthAccount.account user) ->
        DB (snd (GET env request w))
        = before ++ relinked row user :: after).
Proof.
  intros Hc Hne He Hs Ho Hv Hnd.
  set (v := values (random env 16 (drawn w)) user).
  destruct (onConflictDoUpdate_returning v (DB w)) as (id & r & Hret & _).
  destruct (onConflictDoUpdate v (DB w)) as [table returning] eqn:Hu.
  simpl in Hret. subst returning.
  rewrite (GET_callback env request w code escort provider user table id)
    by assumption.
  simpl. split.
  - intros Hnew.
    rewrite onConflictDoUpdate_new in Hu; [congruence|].
    apply Forall_forall. intros row Hrow Hk. apply Hnew.
    rewrite <- (key_values (random env 16 (drawn w)) user). fold v.
    rewrite <- Hk. now apply list_elem_of_fmap_2.
  - intros before row after Hdb Hk.
    rewrite Hdb in Hu, Hnd.
    rewrite onConflictDoUpdate_existing in Hu.
    + subst v. rewrite excluded_values in Hu. congruence.
    + now apply (unique_key_before v row before after).
    + exact Hk.
Qed.

Lemma callback_upserts_account_witness :
  DB (snd (GET site callback in_flight)) = [relinked octocat_row octocat].
Proof.
  refine (proj2 (callback_upserts_account site callback in_flight "4f2a"
                   in_flight_escort github octocat _ _ _ _ _ _ _)
            [] octocat_row [] _ _); try reflexivity.
  - discriminate.
  - vm_compute. apply NoDup_singleton.
Defined.

(** C6: a callback whose state matches and whose exchange succeeds is
    answered with a 302 redirect to the referrer of the escort token, or
    to [/] when it has none, and leaves a passport cookie whose [visa] is
    the id of the row of the table that has the pair of the account and
    the values of the provider. *)
Theorem callback_issues_passport (env : Env) (request : Request) (w : World)
  (code : string) (escort : Payload.t) (provider : Provider)
  (user : OAuthAccount.t) :
  code_of request = Some code -> code <> "" ->
  escort_of w = Some escort ->
  strict_ne (Payload.state escort) (state_of request) = false ->
  OAuth env (params_platform request) = Some provider ->
  validate provider code (Payload.code_verifier escort) = Some user ->
  fst (GET env request w)
  = Return (redirect (default "/" (Payload.referrer escort)) 302)
  /\ exists row,
       row ∈ DB (snd (GET env request w))
       /\ Drifter.key row
          = (OAuthAccount.platform user, OAuthAccount.account user)
       /\ relinked row user = row
       /\ cookies (snd (GET env request w)) !! "passport"
          = Some (Signed (Payload.passport (Drifter.ID row)) None).
Proof.
  intros Hc Hne He Hs Ho Hv.
  set (v := values (random env 16 (drawn w)) user).
  destruct (onConflictDoUpdate_returning v (DB w))
    as (id & row & Hret & Hrow & Hid & Hk & Hx).
  destruct (onConflictDoUpdate v (DB w)) as [table returning] eqn:Hu.
  simpl in Hret, Hrow. subst returning.
  rewrite (GET_callback env request w code escort provider user table id)
    by assumption.
  simpl. split; [reflexivity|].
  exists row. repeat split; try assumption.
  now rewrite Hid, lookup_insert_eq.
Qed.

Lemma callback_issues_passport_witness :
  fst (GET site callback in_flight)
  = Return (redirect (default "/" (Payload.referrer in_flight_escort)) 302)
  /\ exists row,
       row ∈ DB (snd (GET site callback in_flight))
       /\ Drifter.key row
          = (OAuthAccount.platform octocat, OAuthAccount.account octocat)
       /\ relinked row octocat = row
       /\ cookies (snd (GET site callback in_flight)) !! "passport"
          = Some (Signed (Payload.passport (Drifter.ID row)) None).
Proof.
  apply (callback_issues_passport site callback in_flight "4f2a"
           in_flight_escort github octocat); try reflexivity.
  discriminate.
Defined.

(** C4, as amended: for a platform that is not supported, no account
    row is written and no passport cookie is issued, whatever the
    request.  A callback whose state matches fails at the selection of
    the provider, with the escort token revoked and nothing else done.
    A request that starts a flow fails there too, but the new escort
    cookie has been issued by then. *)
Theorem unsupported_platform (env : Env) (request : Request) (w : World) :
  OAuth env (params_platform request) = None ->
  DB (snd (GET env request w)) = DB w
  /\ cookies (snd (GET env request w)) !! "passport" = cookies w !! "passport"
  /\ (truthy (code_of request) = true ->
      strict_ne (escort_of w ≫= Payload.state) (state_of request) = false ->
      GET env request w = (Throw "Unsupported platform", revoked w))
  /\ (truthy (code_of request) = false ->
      truthy (error_of request) = false ->
      fst (GET env request w) = Throw "Unsupported platform"
      /\ cookies (snd (GET env request w)) !! "escort"
         = Some (Signed
                   (Payload.escort (generateState env (drawn w))
                      (generateCodeVerifier env (S (drawn w)))
                      (default "/" (referer request)))
                   (Some "5 minutes"))).
Proof.
  intros Ho.
  split; [|split; [|split]].
  - destruct (truthy (code_of request)) eqn:Hc.
    + destruct (strict_ne (escort_of w ≫= Payload.state) (state_of request))
        eqn:Hs.
      * now rewrite GET_csrf.
      * now rewrite GET_callback_unsupported.
    + destruct (truthy (error_of request)) eqn:He.
      * apply truthy_Some in He as (e & He & Hne).
        now rewrite (GET_error env request w e).
      * now rewrite GET_initiate.
  - destruct (truthy (code_of request)) eqn:Hc.
    + destruct (strict_ne (escort_of w ≫= Payload.state) (state_of request))
        eqn:Hs.
      * rewrite GET_csrf by assumption. simpl.
        now rewrite lookup_delete_ne.
      * rewrite GET_callback_unsupported by assumption. simpl.
        now rewrite lookup_delete_ne.
    + destruct (truthy (error_of request)) eqn:He.
      * apply truthy_Some in He as (e & He & Hne).
        rewrite (GET_error env request w e) by assumption. simpl.
        now rewrite lookup_delete_ne.
      * rewrite GET_initiate by assumption. simpl.
        now rewrite lookup_insert_ne.
  - intros Hc Hs. now apply GET_callback_unsupported.
  - intros Hc He. rewrite GET_initiate by assumption. rewrite Ho. simpl.
    split; [reflexivity|]. now rewrite lookup_insert_eq.
Qed.

Lemma unsupported_platform_witness :
  fst (GET site login_myspace first_visit) = Throw "Unsupported platform"
  /\ cookies (snd (GET site login_myspace first_visit)) !! "escort"
     = Some (Signed
               (Payload.escort (generateState site 0)
                  (generateCodeVerifier site 1) "/")
               (Some "5 minutes")).
Proof.
  apply (unsupported_platform site login_myspace first_visit); reflexivity.
Defined.

(** C4, as stated, fails at the start of a flow: for a platform the site
    does not have, the handler has issued the escort cookie when the
    selection of the provider fails. *)
Lemma unsupported_platform_escort_issued :
  OAuth site (params_platform login_myspace) = None
  /\ GET site login_myspace first_visit
     = (Throw "Unsupported platform",
        {| cookies :=
             {[ "escort" := Signed (Payload.escort "state-0" "verifier-1" "/")
                              (Some "5 minutes") ]};
           DB := [];
           drawn := 2;
           trace := [token_check "escort"; token_revoke "escort";
                     token_issue "escort"
                       (Payload.escort "state-0" "verifier-1" "/")
                       (Some "5 minutes")] |}).
Proof.
  split; [reflexivity|]. vm_compute. reflexivity.
Qed.

(** *** Further facts about the handler *)

(** Every request ends in one of the ways the branch lemmas describe. *)
Ltac GET_cases env request w :=
  let Hc := fresh "Hc" in
  let He := fresh "He" in
  let e := fresh "e" in
  let Hne := fresh "Hne" in
  destruct (truthy (code_of request)) eqn:Hc;
  [ destruct (GET_code env request w Hc)
  | destruct (truthy (error_of request)) eqn:He;
    [ apply truthy_Some in He as (e & He & Hne);
      rewrite (GET_error env request w e) by assumption
    | rewrite (GET_initiate env request w) by assumption ] ].

(** The insert keeps every row in its place, with its id, its identity
    pair and its refresh token. *)
Lemma onConflictDoUpdate_keeps_rows (v : Drifter.t) (table : list Drifter.t) :
  forall (i : nat) (row : Drifter.t),
    table !! i = Some row ->
    exists row',
      fst (onConflictDoUpdate v table) !! i = Some row'
      /\ Drifter.ID row' = Drifter.ID row
      /\ Drifter.key row' = Drifter.key row
      /\ Drifter.refresh row' = Drifter.refresh row.
Proof.
  induction table as [|r rest IH]; intros i row Hi; [discriminate|].
  simpl. destruct (conflict v r) eqn:E.
  - destruct i as [|i]; simpl in *.
    + injection Hi as <-. exists (excluded v r). auto.
    + exists row. auto.
  - destruct (onConflictDoUpdate v rest) as [rest' returning] eqn:Hu.
    destruct i as [|i]; simpl in *.
    + injection Hi as <-. exists r. auto.
    + apply (IH i row Hi).
Qed.

(** Linking the same answer of the provider a second time changes no
    row and returns the same id. *)
Lemma onConflictDoUpdate_again (ID ID' : string) (user : OAuthAccount.t)
  (table : list Drifter.t) :
  onConflictDoUpdate (values ID' user)
    (fst (onConflictDoUpdate (values ID user) table))
  = onConflictDoUpdate (values ID user) table.
Proof.
  destruct (first_conflict (values ID user) table)
    as [Hnew|(before & row & after & -> & Hb & Hr)].
  - rewrite (onConflictDoUpdate_new (values ID user) table) by assumption.
    simpl.
    rewrite (onConflictDoUpdate_existing (values ID' user)
               (values ID user) table []); [reflexivity|exact Hnew|reflexivity].
  - rewrite (onConflictDoUpdate_existing (values ID user) row before after)
      by assumption.
    simpl.
    rewrite (onConflictDoUpdate_existing (values ID' user)
               (excluded (values ID user) row) before after);
      [reflexivity|exact Hb|exact Hr].
Qed.

(** X1: the handler reads and writes two cookies only: every cookie
    other than [escort] and [passport] is after the request as it was
    before, whatever the request and however it ends. *)
Theorem other_cookies_untouched (env : Env) (request : Request) (w : World)
  (name : string) :
  name <> "escort" -> name <> "passport" ->
  cookies (snd (GET env request w)) !! name = cookies w !! name.
Proof.
  intros Hescort Hpassport.
  GET_cases env request w; simpl;
    rewrite ?lookup_insert_ne by congruence;
    rewrite ?lookup_delete_ne by congruence; reflexivity.
Qed.

Lemma other_cookies_untouched_witness :
  cookies (snd (GET site callback in_flight_themed)) !! "theme"
  = Some (Malformed "dark")
  /\ cookies (snd (GET site callback in_flight_themed)) !! "escort" = None.
Proof.
  split.
  - refine (eq_trans
              (other_cookies_untouched site callback in_flight_themed "theme"
                 _ _) _).
    + discriminate.
    + discriminate.
    + reflexivity.
  - vm_compute. reflexivity.
Defined.

(** X2: the passport cookie is set by no request but a callback with a
    non-empty code whose state is that of the escort token, for a
    supported platform, whose code the provider accepts; after any other
    request the passport cookie is as it was. *)
Theorem passport_only_after_exchange (env : Env) (request : Request)
  (w : World) :
  cookies (snd (GET env request w)) !! "passport" = cookies w !! "passport"
  \/ exists code escort provider user,
       code_of request = Some code
       /\ code <> ""
       /\ escort_of w = Some escort
       /\ strict_ne (Payload.state escort) (state_of request) = false
       /\ OAuth env (params_platform request) = Some provider
       /\ validate provider code (Payload.code_verifier escort) = Some user.
Proof.
  GET_cases env request w; simpl;
    try (left; rewrite ?lookup_insert_ne by discriminate;
         rewrite ?lookup_delete_ne by discriminate; reflexivity).
  right. exists code, escort, provider, user.
  repeat split; try assumption.
  apply truthy_Some in Hc as (c & Hc & Hne). congruence.
Qed.

(** X3: no request deletes or moves a row of the account table or
    changes its id, its identity pair or its refresh token. *)
Theorem rows_outlive_requests (env : Env) (request : Request) (w : World)
  (i : nat) (row : Drifter.t) :
  DB w !! i = Some row ->
  exists row',
    DB (snd (GET env request w)) !! i = Some row'
    /\ Drifter.ID row' = Drifter.ID row
    /\ Drifter.key row' = Drifter.key row
    /\ Drifter.refresh row' = Drifter.refresh row.
Proof.
  intros Hrow.
  GET_cases env request w; simpl; try (exists row; now auto).
  pose proof (onConflictDoUpdate_keeps_rows
                (values (random env 16 (drawn w)) user) (DB w) i row Hrow)
    as Hkeep.
  match goal with
  | Hu : onConflictDoUpdate _ _ = _ |- _ => rewrite Hu in Hkeep
  end.
  exact Hkeep.
Qed.

Lemma rows_outlive_requests_witness :
  exists row',
    DB (snd (GET site callback in_flight)) !! 0 = Some row'
    /\ Drifter.ID row' = Drifter.ID octocat_row
    /\ Drifter.key row' = Drifter.key octocat_row
    /\ Drifter.refresh row' = Drifter.refresh octocat_row.
Proof.
  apply (rows_outlive_requests site callback in_flight 0 octocat_row).
  reflexivity.
Defined.

Lemma GET_keeps_pairs_unique_witness :
  NoDup (Drifter.key <$> DB (snd (GET site callback in_flight))).
Proof.
  apply (GET_keeps_pairs_unique site callback in_flight).
  vm_compute. apply NoDup_singleton.
Defined.

(** X5: when the provider does not accept the code, the handler throws
    after the call: the table is not written, no random id is drawn, the
    passport cookie stays as it was and the escort token is gone. *)
Theorem failed_exchange_links_nothing (env : Env) (request : Request)
  (w : World) (code : string) (escort : Payload.t) (provider : Provider) :
  code_of request = Some code -> code <> "" ->
  escort_of w = Some escort ->
  strict_ne (Payload.state escort) (state_of request) = false ->
  OAuth env (params_platform request) = Some provider ->
  validate provider code (Payload.code_verifier escort) = None ->
  (exists what, fst (GET env request w) = Throw what)
  /\ DB (snd (GET env request w)) = DB w
  /\ drawn (snd (GET env request w)) = drawn w
  /\ cookies (snd (GET env request w)) !! "passport" = cookies w !! "passport"
  /\ cookies (snd (GET env request w)) !! "escort" = None.
Proof.
  intros Hc Hne He Hs Ho Hv.
  rewrite (GET_callback_refused env request w code escort provider)
    by assumption.
  simpl. split; [eauto|]. repeat split.
  - now rewrite lookup_delete_ne.
  - apply lookup_delete_eq.
Qed.

Lemma failed_exchange_links_nothing_witness :
  (exists what, fst (GET site stale_callback in_flight) = Throw what)
  /\ DB (snd (GET site stale_callback in_flight)) = DB in_flight
  /\ drawn (snd (GET site stale_callback in_flight)) = drawn in_flight
  /\ cookies (snd (GET site stale_callback in_flight)) !! "passport"
     = cookies in_flight !! "passport"
  /\ cookies (snd (GET site stale_callback in_flight)) !! "escort" = None.
Proof.
  apply (failed_exchange_links_nothing site stale_callback in_flight "0000"
           in_flight_escort github); try reflexivity.
  discriminate.
Defined.

(** X6: a flow that is started and then called back with the state it
    was given completes: the provider is asked with the code verifier
    drawn at the start, the answer is a 302 redirect to the referrer of
    the request that started the flow, or to [/] when it had none, the
    escort token is gone and the passport holds the id of a row of the
    account. *)
Theorem login_round_trip (env : Env) (start back : Request) (w : World)
  (provider provider' : Provider) (code : string) (user : OAuthAccount.t) :
  code_of start = None -> error_of start = None ->
  OAuth env (params_platform start) = Some provider ->
  code_of back = Some code -> code <> "" ->
  state_of back = Some (generateState env (drawn w)) ->
  OAuth env (params_platform back) = Some provider' ->
  validate provider' code (Some (generateCodeVerifier env (S (drawn w))))
  = Some user ->
  fst (GET env back (snd (GET env start w)))
  = Return (redirect (default "/" (referer start)) 302)
  /\ oauth_validate (params_platform back) code
       (Some (generateCodeVerifier env (S (drawn w))))
     ∈ trace (snd (GET env back (snd (GET env start w))))
  /\ cookies (snd (GET env back (snd (GET env start w)))) !! "escort" = None
  /\ exists row,
       row ∈ DB (snd (GET env back (snd (GET env start w))))
       /\ Drifter.key row
          = (OAuthAccount.platform user, OAuthAccount.account user)
       /\ cookies (snd (GET env back (snd (GET env start w)))) !! "passport"
          = Some (Signed (Payload.passport (Drifter.ID row)) None).
Proof.
  intros Hc He Ho Hcode Hne Hstate Ho' Hv.
  rewrite (GET_initiate env start w) by (now rewrite ?Hc, ?He).
  simpl.
  set (escort := Payload.escort (generateState env (drawn w))
                   (generateCodeVerifier env (S (drawn w)))
                   (default "/" (referer start))).
  set (w1 := {| cookies := <["escort" := Signed escort (Some "5 minutes")]>
                             (cookies w);
                DB := DB w; drawn := S (S (drawn w));
                trace := trace w ++ [token_check "escort";
                                     token_revoke "escort";
                                     token_issue "escort" escort
                                       (Some "5 minutes")] |}).
  set (v := values (random env 16 (drawn w1)) user).
  destruct (onConflictDoUpdate_returning v (DB w1))
    as (id & row & Hret & Hrow & Hid & Hk & _).
  destruct (onConflictDoUpdate v (DB w1)) as [table returning] eqn:Hu.
  simpl in Hret, Hrow. subst returning.
  rewrite (GET_callback env back w1 code escort provider' user table id);
    try assumption.
  - simpl. split; [reflexivity|]. split; [|split].
    + apply elem_of_app. right.
      apply list_elem_of_In. simpl. tauto.
    + rewrite lookup_insert_ne by discriminate. apply lookup_delete_eq.
    + exists row. split; [exact Hrow|]. split; [exact Hk|].
      now rewrite Hid, lookup_insert_eq.
  - unfold escort_of, Token.read, w1. simpl. now rewrite lookup_insert_eq.
  - rewrite Hstate. simpl. now rewrite String.eqb_refl.
Qed.

Lemma login_round_trip_witness :
  fst (GET site second_callback (snd (GET site login
                                        (snd (GET site callback in_flight)))))
  = Return (redirect "/note/building-apis" 302).
Proof.
  apply (login_round_trip site login second_callback
           (snd (GET site callback in_flight)) github github "4f2a" octocat);
    try reflexivity.
  discriminate.
Defined.

(** X7: linking an account again changes nothing: when a callback has
    linked an account and a later callback, on the table the first one
    left, gets the same answer from the provider, the table stays as it
    is and the passport holds the same id. *)
Theorem relogin_changes_nothing (env : Env) (request request' : Request)
  (w w' : World) (code code' : string) (escort escort' : Payload.t)
  (provider provider' : Provider) (user : OAuthAccount.t) :
  code_of request = Some code -> code <> "" ->
  escort_of w = Some escort ->
  strict_ne (Payload.state escort) (state_of request) = false ->
  OAuth env (params_platform request) = Some provider ->
  validate provider code (Payload.code_verifier escort) = Some user ->
  code_of request' = Some code' -> code' <> "" ->
  escort_of w' = Some escort' ->
  strict_ne (Payload.state escort') (state_of request') = false ->
  OAuth env (params_platform request') = Some provider' ->
  validate provider' code' (Payload.code_verifier escort') = Some user ->
  DB w' = DB (snd (GET env request w)) ->
  DB (snd (GET env request' w')) = DB w'
  /\ cookies (snd (GET env request' w')) !! "passport"
     = cookies (snd (GET env request w)) !! "passport".
Proof.
  intros Hc Hne He Hs Ho Hv Hc' Hne' He' Hs' Ho' Hv' Hdb.
  set (v := values (random env 16 (drawn w)) user).
  set (v' := values (random env 16 (drawn w')) user).
  destruct (onConflictDoUpdate_returning v (DB w)) as (id & r & Hret & _).
  destruct (onConflictDoUpdate v (DB w)) as [table returning] eqn:Hu.
  simpl in Hret. subst returning.
  rewrite (GET_callback env request w code escort provider user table id)
    in * by assumption.
  simpl in Hdb.
  assert (Hu' : onConflictDoUpdate v' (DB w') = (table, [id])).
  { rewrite Hdb.
    change table with (fst (table, [id])) at 1. rewrite <- Hu.
    subst v v'. now rewrite onConflictDoUpdate_again. }
  rewrite (GET_callback env request' w' code' escort' provider' user table id)
    by assumption.
  simpl. split; [now rewrite Hdb|].
  now rewrite !lookup_insert_eq.
Qed.

Lemma relogin_changes_nothing_witness :
  DB (snd (GET site second_callback second_flow)) = DB second_flow
  /\ cookies (snd (GET site second_callback second_flow)) !! "passport"
     = cookies (snd (GET site callback in_flight)) !! "passport".
Proof.
  apply (relogin_changes_nothing site callback second_callback in_flight
           second_flow "4f2a" "4f2a" in_flight_escort
           (Payload.escort "state-3" "verifier-4" "/note/building-apis")
           github github octocat);
    try reflexivity; discriminate.
Defined.

(** X8: what a request asks of its collaborators: it reads and revokes
    the escort token, and after that it does nothing, or issues an escort
    token with a time-to-live of five minutes, or calls the provider, or
    calls the provider, writes the table once and issues the passport.
    So the table is written only after a call to the provider in the same
    request, and the passport is issued only after the write. *)
Theorem requests_in_order (env : Env) (request : Request) (w : World) :
  exists rest,
    trace (snd (GET env request w))
    = trace w ++ token_check "escort" :: token_revoke "escort" :: rest
    /\ (rest = []
        \/ (exists escort,
              rest = [token_issue "escort" escort (Some "5 minutes")])
        \/ (exists code verifier,
              rest = [oauth_validate (params_platform request) code verifier])
        \/ (exists code verifier row id,
              rest = [oauth_validate (params_platform request) code verifier;
                      db_insert row;
                      token_issue "passport" (Payload.passport id) None])).
Proof.
  GET_cases env request w; simpl; eexists; (split; [reflexivity|]); eauto 10.
Qed.

(** X9: a callback with a code and no [state] parameter is answered
    with 401, whatever the escort cookie holds, and does nothing but
    revoke the escort token. *)
Theorem callback_without_state (env : Env) (request : Request) (w : World) :
  truthy (code_of request) = true ->
  state_of request = None ->
  GET env request w = (Return (new_Response "Unauthorized" 401), revoked w).
Proof.
  intros Hc Hs. apply GET_csrf; [exact Hc|].
  rewrite Hs. now destruct (escort_of w ≫= Payload.state).
Qed.

Lemma callback_without_state_witness :
  GET site stateless_callback in_flight
  = (Return (new_Response "Unauthorized" 401), revoked in_flight).
Proof.
  apply (callback_without_state site stateless_callback in_flight);
    reflexivity.
Defined.

End AnchorFacts.
